(** * The Tailwind configuration of the front-end, as a value

    [frontend/tailwind.config.js] is a single object literal assigned to
    [module.exports].  The literal is embedded below as a term of a small
    type of JavaScript values; object literals keep their properties in
    source order, as the engine does. *)

From Stdlib Require Import List String Ascii Bool Arith NArith ZArith QArith Lia.
Import ListNotations.
Close Scope Q_scope.
Open Scope string_scope.

(** ** JavaScript values *)

Module JS.

#[local] Unset Elimination Schemes.

(** The values the literal is built from.  [VRequire m] is the result
    of [require(m)]: the export of an external module, of which the
    file only fixes the name. *)
Inductive value : Type :=
| VUndefined
| VBool (b : bool)
| VStr (s : string)
| VArr (elems : list value)
| VObj (props : list (string * value))
| VRequire (module : string).

#[local] Set Elimination Schemes.

(** Reading property [k] of an object literal: when a key is written
    twice, the later definition is the one that is read. *)
Fixpoint get_prop (k : string) (props : list (string * value)) : option value :=
  match props with
  | [] => None
  | (k', v) :: rest =>
      match get_prop k rest with
      | Some v' => Some v'
      | None => if String.eqb k k' then Some v else None
      end
  end.

Definition props_of (v : value) : list (string * value) :=
  match v with
  | VObj props => props
  | _ => []
  end.

Definition elems_of (v : value) : list value :=
  match v with
  | VArr elems => elems
  | _ => []
  end.

(** [v[k]]: a property that is absent reads as [undefined]. *)
Definition member (v : value) (k : string) : value :=
  match get_prop k (props_of v) with
  | Some x => x
  | None => VUndefined
  end.

(** [k in v] *)
Definition has_key (k : string) (v : value) : bool :=
  match get_prop k (props_of v) with
  | Some _ => true
  | None => false
  end.

(** [Object.keys(v)], for a literal without repeated keys. *)
Definition keys (v : value) : list string := map fst (props_of v).

(** [v[k1][k2]...] *)
Fixpoint lookup (v : value) (path : list string) : value :=
  match path with
  | [] => v
  | k :: path' => lookup (member v k) path'
  end.

(** Every key path the literal writes down, outermost key first. *)
Fixpoint declared_paths (v : value) : list (list string) :=
  match v with
  | VObj props =>
      flat_map (fun '(k, x) => [k] :: map (cons k) (declared_paths x)) props
  | _ => []
  end.

(** No [undefined] at the value or anywhere below it. *)
Fixpoint fully_defined (v : value) : bool :=
  match v with
  | VUndefined => false
  | VArr elems => forallb fully_defined elems
  | VObj props => forallb (fun '(_, x) => fully_defined x) props
  | _ => true
  end.

Fixpoint distinct (ks : list string) : bool :=
  match ks with
  | [] => true
  | k :: rest => negb (existsb (String.eqb k) rest) && distinct rest
  end.

(** No object of the value, at any object depth, repeats a key. *)
Fixpoint no_dup_keys (v : value) : bool :=
  match v with
  | VObj props =>
      distinct (map fst props) && forallb (fun '(_, x) => no_dup_keys x) props
  | _ => true
  end.

Definition is_string (v : value) : bool :=
  match v with VStr _ => true | _ => false end.

Definition is_bool (v : value) : bool :=
  match v with VBool _ => true | _ => false end.

Definition is_object (v : value) : bool :=
  match v with VObj _ => true | _ => false end.

Definition is_list_of (elem : value -> bool) (v : value) : bool :=
  match v with VArr elems => forallb elem elems | _ => false end.

Definition is_require (v : value) : bool :=
  match v with VRequire _ => true | _ => false end.

(** Structural induction through the lists of arrays and objects. *)
Section ValueInd.

Variable P : value -> Prop.
Hypothesis Hundef : P VUndefined.
Hypothesis Hbool : forall b, P (VBool b).
Hypothesis Hstr : forall s, P (VStr s).
Hypothesis Harr : forall elems, Forall P elems -> P (VArr elems).
Hypothesis Hobj :
  forall props, Forall (fun kv => P (snd kv)) props -> P (VObj props).
Hypothesis Hreq : forall m, P (VRequire m).

Fixpoint value_ind (v : value) : P v :=
  match v with
  | VUndefined => Hundef
  | VBool b => Hbool b
  | VStr s => Hstr s
  | VArr elems =>
      Harr elems
        ((fix all (l : list value) : Forall P l :=
            match l with
            | [] => Forall_nil P
            | x :: r => Forall_cons x (value_ind x) (all r)
            end) elems)
  | VObj props =>
      Hobj props
        ((fix all (l : list (string * value))
            : Forall (fun kv => P (snd kv)) l :=
            match l with
            | [] => Forall_nil _
            | kv :: r => Forall_cons kv (value_ind (snd kv)) (all r)
            end) props)
  | VRequire m => Hreq m
  end.

End ValueInd.

End JS.

Import JS.

(** ** The configuration object *)

Definition darkMode : value := VArr [VStr "class"].

Definition content : value :=
  VArr [ VStr "./pages/**/*.{js,jsx}";
         VStr "./components/**/*.{js,jsx}";
         VStr "./app/**/*.{js,jsx}";
         VStr "./src/**/*.{js,jsx}" ].

Definition prefix : value := VStr "".

Definition container : value :=
  VObj [ ("center", VBool true);
         ("padding", VStr "2rem");
         ("screens", VObj [ ("2xl", VStr "1400px") ]) ].

Definition fontFamily : value :=
  VObj [ ("heading", VArr [VStr "Outfit"; VStr "sans-serif"]);
         ("body", VArr [VStr "DM Sans"; VStr "sans-serif"]);
         ("mono", VArr [VStr "JetBrains Mono"; VStr "monospace"]) ].

Definition colors : value :=
  VObj [ ("border", VStr "#E7E5E4");
         ("input", VStr "#E7E5E4");
         ("ring", VStr "#064E3B");
         ("background", VStr "#FAFAF9");
         ("foreground", VStr "#1C1917");
         ("primary",
           VObj [ ("DEFAULT", VStr "#064E3B"); ("foreground", VStr "#FFFFFF") ]);
         ("secondary",
           VObj [ ("DEFAULT", VStr "#FAFAF9"); ("foreground", VStr "#1C1917") ]);
         ("accent",
           VObj [ ("DEFAULT", VStr "#D9F99D"); ("foreground", VStr "#365314") ]);
         ("muted",
           VObj [ ("DEFAULT", VStr "#F5F5F4"); ("foreground", VStr "#57534E") ]);
         ("destructive",
           VObj [ ("DEFAULT", VStr "#EF4444"); ("foreground", VStr "#FFFFFF") ]);
         ("card",
           VObj [ ("DEFAULT", VStr "#FFFFFF"); ("foreground", VStr "#1C1917") ]);
         ("popover",
           VObj [ ("DEFAULT", VStr "#FFFFFF"); ("foreground", VStr "#1C1917") ]) ].

Definition borderRadius : value :=
  VObj [ ("lg", VStr "0.5rem");
         ("md", VStr "0.375rem");
         ("sm", VStr "0.125rem") ].

Definition keyframes : value :=
  VObj [ ("accordion-down",
           VObj [ ("from", VObj [ ("height", VStr "0") ]);
                  ("to", VObj [ ("height",
                                 VStr "var(--radix-accordion-content-height)") ]) ]);
         ("accordion-up",
           VObj [ ("from", VObj [ ("height",
                                   VStr "var(--radix-accordion-content-height)") ]);
                  ("to", VObj [ ("height", VStr "0") ]) ]) ].

Definition animation : value :=
  VObj [ ("accordion-down", VStr "accordion-down 0.2s ease-out");
         ("accordion-up", VStr "accordion-up 0.2s ease-out") ].

Definition extend : value :=
  VObj [ ("fontFamily", fontFamily);
         ("colors", colors);
         ("borderRadius", borderRadius);
         ("keyframes", keyframes);
         ("animation", animation) ].

Definition theme : value :=
  VObj [ ("container", container);
         ("extend", extend) ].

Definition plugins : value := VArr [VRequire "tailwindcss-animate"].

Definition module_exports : value :=
  VObj [ ("darkMode", darkMode);
         ("content", content);
         ("prefix", prefix);
         ("theme", theme);
         ("plugins", plugins) ].

(** ** Reading the strings of the table

    The table stores colours, lengths, animation shorthands and globs as
    strings.  The readers below give them the meaning the style
    generator gives them. *)

Module Css.

(** The fields of [s] between occurrences of [sep]. *)
Fixpoint split_on (sep : ascii) (s : string) : list string :=
  match s with
  | EmptyString => [EmptyString]
  | String c rest =>
      let fields := split_on sep rest in
      if Ascii.eqb c sep then EmptyString :: fields
      else match fields with
           | [] => [String c EmptyString]
           | w :: ws => String c w :: ws
           end
  end.

Definition nonempty (s : string) : bool :=
  match s with EmptyString => false | _ => true end.

(** Space-separated words. *)
Definition words (s : string) : list string :=
  filter nonempty (split_on " "%char s).

Definition all_chars (p : ascii -> bool) (s : string) : bool :=
  forallb p (list_ascii_of_string s).

(** *** Colours *)

Definition hex_digit (c : ascii) : option N :=
  let n := N_of_ascii c in
  if (48 <=? n)%N && (n <=? 57)%N then Some (n - 48)%N
  else if (65 <=? n)%N && (n <=? 70)%N then Some (n - 55)%N
  else if (97 <=? n)%N && (n <=? 102)%N then Some (n - 87)%N
  else None.

Fixpoint hex_number (acc : N) (s : string) : option N :=
  match s with
  | EmptyString => Some acc
  | String c rest =>
      match hex_digit c with
      | Some d => hex_number (16 * acc + d)%N rest
      | None => None
      end
  end.

(** The 24-bit RGB value of [#RRGGBB]; nothing else is accepted. *)
Definition rgb_of_hex (s : string) : option N :=
  match s with
  | String "#"%char digits =>
      if Nat.eqb (String.length digits) 6 then hex_number 0%N digits else None
  | _ => None
  end.

Definition is_hex6 (s : string) : bool :=
  match rgb_of_hex s with Some _ => true | None => false end.

(** *** Lengths *)

Definition decimal_digit (c : ascii) : option N :=
  let n := N_of_ascii c in
  if (48 <=? n)%N && (n <=? 57)%N then Some (n - 48)%N else None.

(** Reads the leading decimal digits of [s] onto [acc]; returns the
    number read, how many digits it took and the rest of the string. *)
Fixpoint read_digits (acc : N) (count : nat) (s : string) : N * nat * string :=
  match s with
  | EmptyString => (acc, count, s)
  | String c rest =>
      match decimal_digit c with
      | Some d => read_digits (10 * acc + d)%N (S count) rest
      | None => (acc, count, s)
      end
  end.

Record length : Type := mkLength { magnitude : Q; unit : string }.

(** [digits[.digits]unit], the magnitude kept as an exact fraction. *)
Definition parse_length (s : string) : option length :=
  let '(whole, nw, rest) := read_digits 0%N 0 s in
  match rest with
  | String "."%char frac =>
      let '(num, nf, rest') := read_digits whole 0 frac in
      if Nat.eqb nf 0 then None
      else Some (mkLength (Z.of_N num # Pos.pow 10 (Pos.of_nat nf))%Q rest')
  | _ =>
      if Nat.eqb nw 0 then None
      else Some (mkLength (Z.of_N whole # 1)%Q rest)
  end.

(** The magnitude of a length written in unit [u]. *)
Definition in_unit (u : string) (v : value) : option Q :=
  match v with
  | VStr s =>
      match parse_length s with
      | Some l => if String.eqb (unit l) u then Some (magnitude l) else None
      | None => None
      end
  | _ => None
  end.

(** *** Animation shorthands *)

Record binding : Type :=
  mkBinding { keyframe : string; duration : string; easing : string }.

(** [name duration easing] *)
Definition parse_binding (v : value) : option binding :=
  match v with
  | VStr s =>
      match words s with
      | [n; d; e] => Some (mkBinding n d e)
      | _ => None
      end
  | _ => None
  end.

(** *** Globs *)

Definition last_segment (s : string) : string :=
  last (split_on "/"%char s) EmptyString.

Definition is_alnum (c : ascii) : bool :=
  let n := N_of_ascii c in
  ((48 <=? n)%N && (n <=? 57)%N)
  || ((65 <=? n)%N && (n <=? 90)%N)
  || ((97 <=? n)%N && (n <=? 122)%N).

Definition is_extension (s : string) : bool :=
  nonempty s && all_chars is_alnum s.

(** The alternatives of [{a,b,...}]; a string without braces is its
    own single alternative. *)
Definition alternatives (s : string) : list string :=
  match s with
  | String "{"%char rest =>
      let n := String.length rest in
      if String.eqb (substring (n - 1) 1 rest) "}"
      then split_on ","%char (substring 0 (n - 1) rest)
      else [s]
  | _ => [s]
  end.

(** The extensions a file-extension wildcard [*.ext] or
    [*.{ext,...}] matches; [None] for any other file-name pattern. *)
Definition extension_wildcard (segment : string) : option (list string) :=
  match segment with
  | String "*"%char (String "."%char rest) =>
      let exts := alternatives rest in
      if forallb is_extension exts then Some exts else None
  | _ => None
  end.

Definition glob_extensions (v : value) : option (list string) :=
  match v with
  | VStr s => extension_wildcard (last_segment s)
  | _ => None
  end.

End Css.

Import Css.

(** ** Sections and shapes of the exported object *)

(** [module.exports.theme.extend[section]] *)
Definition theme_extend (section : string) : value :=
  lookup module_exports ["theme"; "extend"; section].

(** [module.exports.theme.container] *)
Definition theme_container : value :=
  lookup module_exports ["theme"; "container"].

Fixpoint same_keys (ks ks' : list string) : bool :=
  match ks, ks' with
  | [], [] => true
  | k :: r, k' :: r' => String.eqb k k' && same_keys r r'
  | _, _ => false
  end.

(** A token: one word. *)
Definition is_token (v : value) : bool :=
  match v with
  | VStr s => match words s with [w] => String.eqb w s | _ => false end
  | _ => false
  end.

Definition is_length (v : value) : bool :=
  match v with
  | VStr s => match parse_length s with Some _ => true | None => false end
  | _ => false
  end.

Definition is_empty_string (v : value) : bool :=
  match v with VStr s => negb (nonempty s) | _ => false end.

Definition is_mapping_of (elem : value -> bool) (v : value) : bool :=
  match v with
  | VObj props => forallb (fun '(_, x) => elem x) props
  | _ => false
  end.

Definition container_shape (v : value) : bool :=
  is_bool (member v "center")
  && is_length (member v "padding")
  && is_mapping_of is_length (member v "screens").

Definition extend_shape (v : value) : bool :=
  same_keys (keys v)
    ["fontFamily"; "colors"; "borderRadius"; "keyframes"; "animation"]
  && forallb (fun '(_, x) => is_object x) (props_of v).

(** The shape of the whole object, with the shape of [darkMode] left
    open as [dark]. *)
Definition config_shape (dark : value -> bool) (cfg : value) : bool :=
  same_keys (keys cfg) ["darkMode"; "content"; "prefix"; "theme"; "plugins"]
  && dark (member cfg "darkMode")
  && is_list_of is_string (member cfg "content")
  && is_empty_string (member cfg "prefix")
  && container_shape (lookup cfg ["theme"; "container"])
  && extend_shape (lookup cfg ["theme"; "extend"])
  && is_list_of is_require (member cfg "plugins").

(** A keyframe played backwards: its end points exchanged. *)
Definition reverse_keyframe (k : value) : value :=
  VObj [ ("from", member k "to"); ("to", member k "from") ].

(** The roles of a colour table that come with a [foreground]. *)
Definition paired_roles (table : value) : list string :=
  map fst (filter (fun '(_, v) => has_key "foreground" v) (props_of table)).

(** ** Further readings of the table *)

Definition is_hex_color (v : value) : bool :=
  match v with VStr s => is_hex6 s | _ => false end.

(** Data only: nothing required from outside and no [undefined], at
    the value or anywhere below it. *)
Fixpoint plain (v : value) : bool :=
  match v with
  | VUndefined => false
  | VRequire _ => false
  | VArr elems => forallb plain elems
  | VObj props => forallb (fun '(_, x) => plain x) props
  | _ => true
  end.

Definition is_name (s : string) : bool :=
  nonempty s && all_chars is_alnum s.

(** The path segments of a glob. *)
Definition segments (s : string) : list string := split_on "/"%char s.

(** Every string written at the value or anywhere below it, in source
    order. *)
Fixpoint strings_of (v : value) : list string :=
  match v with
  | VStr s => [s]
  | VArr elems => flat_map strings_of elems
  | VObj props => flat_map (fun '(_, x) => strings_of x) props
  | _ => []
  end.

Definition positive_length (v : value) : bool :=
  match v with
  | VStr s =>
      match parse_length s with
      | Some l =>
          (String.eqb (unit l) "rem" || String.eqb (unit l) "px")
          && (0 <? Qnum (magnitude l))%Z
      | None => false
      end
  | _ => false
  end.

(** ** The plugin list and the accordion animations *)







(** Splits a hypothesis of membership in a literal list into one goal
    per entry, with the entry substituted. *)
Ltac each_entry H :=
  simpl in H;
  repeat (destruct H as [H | H];
          [ first [ injection H as <- <- | subst ] | ]);
  try contradiction.

(** ** Checks of the readers *)

Example split_words : words "accordion-up 0.2s  ease-out" = ["accordion-up"; "0.2s"; "ease-out"].
Proof. reflexivity. Qed.

Example rgb_ring : rgb_of_hex "#064E3B" = Some 413243%N.
Proof. reflexivity. Qed.

Example rgb_short : rgb_of_hex "#FFF" = None.
Proof. reflexivity. Qed.

Example length_md : parse_length "0.375rem" = Some (mkLength (375 # 1000)%Q "rem").
Proof. reflexivity. Qed.

Example length_px : parse_length "1400px" = Some (mkLength (1400 # 1)%Q "px").
Proof. reflexivity. Qed.

Example length_none : parse_length "rem" = None.
Proof. reflexivity. Qed.

Example glob_pages : glob_extensions (VStr "./pages/**/*.{js,jsx}") = Some ["js"; "jsx"].
Proof. reflexivity. Qed.

Example glob_single : glob_extensions (VStr "./index.html") = None.
Proof. reflexivity. Qed.

Example glob_plain : glob_extensions (VStr "src/*.tsx") = Some ["tsx"].
Proof. reflexivity. Qed.

(** ** Object literals and lookup *)

Section Lookup.

Implicit Types (k : string) (v x : value) (props : list (string * value)).

Lemma get_prop_absent k props :
  existsb (String.eqb k) (map fst props) = false -> get_prop k props = None.
Proof.
  induction props as [|[k' v] rest IH]; simpl; [reflexivity|].
  intros H. apply orb_false_elim in H as [Hk Hrest].
  rewrite (IH Hrest), Hk. reflexivity.
Qed.

Lemma get_prop_declared k x props :
  distinct (map fst props) = true -> In (k, x) props -> get_prop k props = Some x.
Proof.
  induction props as [|[k' v] rest IH]; simpl; [contradiction|].
  intros Hd Hin. apply andb_prop in Hd as [Hfresh Hd].
  destruct Hin as [Heq | Hin].
  - injection Heq as -> ->.
    apply negb_true_iff in Hfresh.
    rewrite (get_prop_absent _ _ Hfresh), String.eqb_refl. reflexivity.
  - rewrite (IH Hd Hin). reflexivity.
Qed.

Lemma member_declared k x props :
  distinct (map fst props) = true -> In (k, x) props -> member (VObj props) k = x.
Proof.
  intros Hd Hin. unfold member. simpl.
  rewrite (get_prop_declared _ _ _ Hd Hin). reflexivity.
Qed.

Lemma declared_paths_inv props (p : list string) :
  In p (declared_paths (VObj props)) ->
  exists k x, In (k, x) props /\
    (p = [k] \/ exists q, p = k :: q /\ In q (declared_paths x)).
Proof.
  simpl. intros H. apply in_flat_map in H as [[k x] [Hin Hp]].
  exists k, x. split; [exact Hin|].
  destruct Hp as [<- | Hp]; [left; reflexivity|].
  apply in_map_iff in Hp as [q [<- Hq]]. right. exists q. split; [reflexivity | exact Hq].
Qed.

(** In a value without repeated keys and without [undefined], every
    declared path leads to a value without [undefined]. *)
Lemma lookup_declared_defined v :
  no_dup_keys v = true -> fully_defined v = true ->
  forall p, In p (declared_paths v) -> fully_defined (lookup v p) = true.
Proof.
  induction v as [ | b | s | elems _ | props IH | m ] using value_ind;
    try (intros _ _ p []).
  intros Hnd Hdef p Hp.
  simpl in Hnd. apply andb_prop in Hnd as [Hd Hnd].
  simpl in Hdef.
  rewrite forallb_forall in Hnd, Hdef.
  rewrite Forall_forall in IH.
  apply declared_paths_inv in Hp as [k [x [Hin Hp]]].
  specialize (Hnd _ Hin). specialize (Hdef _ Hin). specialize (IH _ Hin).
  simpl in Hnd, Hdef, IH.
  destruct Hp as [-> | [q [-> Hq]]]; simpl;
    rewrite (member_declared _ _ _ Hd Hin).
  - exact Hdef.
  - apply IH; assumption.
Qed.

End Lookup.

Lemma module_exports_no_dup_keys : no_dup_keys module_exports = true.
Proof. vm_compute. reflexivity. Qed.

Lemma module_exports_fully_defined : fully_defined module_exports = true.
Proof. vm_compute. reflexivity. Qed.

Lemma module_exports_sections :
  theme_container = container
  /\ theme_extend "fontFamily" = fontFamily
  /\ theme_extend "colors" = colors
  /\ theme_extend "borderRadius" = borderRadius
  /\ theme_extend "keyframes" = keyframes
  /\ theme_extend "animation" = animation.
Proof. repeat split. Qed.

(** C6. Looking up any key path declared in the configuration object
    yields a value that is defined and has no undefined part; lookup is
    a function of the table and the path alone. *)
Theorem lookup_total_on_declared_keys :
  forall p : list string,
    In p (declared_paths module_exports) ->
    lookup module_exports p <> VUndefined
    /\ fully_defined (lookup module_exports p) = true.
Proof.
  intros p Hp.
  assert (H : fully_defined (lookup module_exports p) = true).
  { apply lookup_declared_defined;
      [ exact module_exports_no_dup_keys
      | exact module_exports_fully_defined
      | exact Hp ]. }
  split; [|exact H].
  intros E. rewrite E in H. discriminate H.
Qed.

Lemma lookup_total_on_declared_keys_witness :
  In ["theme"; "extend"; "colors"; "primary"; "foreground"]
     (declared_paths module_exports)
  /\ lookup module_exports ["theme"; "extend"; "colors"; "primary"; "foreground"]
       <> VUndefined
  /\ fully_defined
       (lookup module_exports ["theme"; "extend"; "colors"; "primary"; "foreground"])
     = true.
Proof.
  assert (Hin : In ["theme"; "extend"; "colors"; "primary"; "foreground"]
                   (declared_paths module_exports)).
  { vm_compute. tauto. }
  split; [exact Hin|].
  exact (lookup_total_on_declared_keys _ Hin).
Defined.

Example lookup_undeclared : lookup module_exports ["theme"; "colors"] = VUndefined.
Proof. reflexivity. Qed.

(** ** The sections of the table *)

(** C1 (amended). The exported object has exactly the keys
    darkMode, content, prefix, theme and plugins; darkMode is a
    one-element list holding the strategy token class, content a list of
    strings, prefix the empty string, theme.container a mapping with a
    boolean center, a length padding and a mapping of breakpoints to
    lengths, theme.extend a mapping with exactly the sections fontFamily,
    colors, borderRadius, keyframes and animation, each a mapping, and
    plugins a list of required external modules. *)
Theorem exported_shape :
  config_shape (is_list_of is_token) module_exports = true
  /\ member module_exports "darkMode" = VArr [VStr "class"]
  /\ keys module_exports = ["darkMode"; "content"; "prefix"; "theme"; "plugins"]
  /\ keys (lookup module_exports ["theme"; "extend"])
     = ["fontFamily"; "colors"; "borderRadius"; "keyframes"; "animation"]
  /\ keys theme_container = ["center"; "padding"; "screens"].
Proof. repeat split. Qed.

(** C1 (as stated). With darkMode required to be a token itself, the
    listed shape does not describe the exported object: its darkMode is
    a list, not a string. *)
Lemma exported_shape_darkMode_not_token :
  config_shape is_token module_exports = false
  /\ is_token (member module_exports "darkMode") = false
  /\ is_string (member module_exports "darkMode") = false.
Proof. repeat split. Qed.

(** C2. Every entry of the animation mapping reads as a binding of a
    keyframe name, a duration and an easing, and the keyframe name is a
    key of the keyframes mapping; the accordion-down animation names the
    accordion-down keyframe. *)
Theorem animation_keyframes_exist :
  forall (name : string) (v : value),
    In (name, v) (props_of (theme_extend "animation")) ->
    exists b : binding,
      parse_binding v = Some b
      /\ has_key (keyframe b) (theme_extend "keyframes") = true
      /\ (name = "accordion-down" -> keyframe b = "accordion-down").
Proof.
  intros name v H. each_entry H.
  - exists (mkBinding "accordion-down" "0.2s" "ease-out"). repeat split.
  - exists (mkBinding "accordion-up" "0.2s" "ease-out"). repeat split.
    intros E. discriminate E.
Qed.

Lemma animation_keyframes_exist_witness :
  In ("accordion-down", VStr "accordion-down 0.2s ease-out")
     (props_of (theme_extend "animation"))
  /\ exists b : binding,
       parse_binding (VStr "accordion-down 0.2s ease-out") = Some b
       /\ has_key (keyframe b) (theme_extend "keyframes") = true
       /\ ("accordion-down" = "accordion-down" -> keyframe b = "accordion-down").
Proof.
  split.
  - simpl. left. reflexivity.
  - apply (animation_keyframes_exist "accordion-down").
    simpl. left. reflexivity.
Defined.

(** C3. Every colour role that declares a foreground defines both
    DEFAULT and foreground, and both are 6-digit RGB hex strings. *)
Theorem paired_colors_are_hex :
  forall (role : string) (v : value),
    In (role, v) (props_of (theme_extend "colors")) ->
    has_key "foreground" v = true ->
    exists d f : string,
      member v "DEFAULT" = VStr d
      /\ member v "foreground" = VStr f
      /\ is_hex6 d = true
      /\ is_hex6 f = true.
Proof.
  intros role v H Hfg.
  each_entry H; try discriminate Hfg;
    do 2 eexists; repeat split; reflexivity.
Qed.

Lemma paired_colors_are_hex_witness :
  In ("accent", member (theme_extend "colors") "accent")
     (props_of (theme_extend "colors"))
  /\ has_key "foreground" (member (theme_extend "colors") "accent") = true
  /\ exists d f : string,
       member (member (theme_extend "colors") "accent") "DEFAULT" = VStr d
       /\ member (member (theme_extend "colors") "accent") "foreground" = VStr f
       /\ is_hex6 d = true
       /\ is_hex6 f = true.
Proof.
  assert (Hin : In ("accent", member (theme_extend "colors") "accent")
                   (props_of (theme_extend "colors"))).
  { vm_compute. tauto. }
  split; [exact Hin|].
  split; [reflexivity|].
  apply (paired_colors_are_hex "accent" _ Hin). reflexivity.
Defined.

(** C4. The radii sm, md and lg are all written in rem, their
    magnitudes are exactly 1/8, 3/8 and 1/2, and as rationals they
    satisfy sm < md < lg, hence also sm <= md <= lg. *)
Theorem radius_scale_increasing :
  exists sm md lg : Q,
    in_unit "rem" (member (theme_extend "borderRadius") "sm") = Some sm
    /\ in_unit "rem" (member (theme_extend "borderRadius") "md") = Some md
    /\ in_unit "rem" (member (theme_extend "borderRadius") "lg") = Some lg
    /\ (sm == 1 # 8 /\ md == 3 # 8 /\ lg == 1 # 2)%Q
    /\ (sm < md /\ md < lg)%Q
    /\ (sm <= md /\ md <= lg)%Q.
Proof.
  exists (125 # 1000)%Q, (375 # 1000)%Q, (5 # 10)%Q.
  repeat split; try reflexivity;
    unfold Qlt, Qle; simpl; lia.
Qed.

(** C5. Every entry of the content list is a non-empty string that
    ends in the file-name pattern [*.{js,jsx}], the extension wildcard
    for js and jsx files. *)
Theorem content_globs_end_in_extension_wildcard :
  forall g : value,
    In g (elems_of (member module_exports "content")) ->
    exists s dir : string,
      g = VStr s
      /\ s <> ""
      /\ s = dir ++ "/" ++ last_segment s
      /\ extension_wildcard (last_segment s) = Some ["js"; "jsx"]
      /\ glob_extensions g = Some ["js"; "jsx"].
Proof.
  intros g H. simpl in H.
  destruct H as [<- | [<- | [<- | [<- | []]]]].
  - exists "./pages/**/*.{js,jsx}", "./pages/**". repeat split. discriminate.
  - exists "./components/**/*.{js,jsx}", "./components/**". repeat split. discriminate.
  - exists "./app/**/*.{js,jsx}", "./app/**". repeat split. discriminate.
  - exists "./src/**/*.{js,jsx}", "./src/**". repeat split. discriminate.
Qed.

Lemma content_globs_end_in_extension_wildcard_witness :
  In (VStr "./app/**/*.{js,jsx}") (elems_of (member module_exports "content"))
  /\ exists s dir : string,
       VStr "./app/**/*.{js,jsx}" = VStr s
       /\ s <> ""
       /\ s = dir ++ "/" ++ last_segment s
       /\ extension_wildcard (last_segment s) = Some ["js"; "jsx"]
       /\ glob_extensions (VStr "./app/**/*.{js,jsx}") = Some ["js"; "jsx"].
Proof.
  assert (Hin : In (VStr "./app/**/*.{js,jsx}")
                   (elems_of (member module_exports "content"))).
  { simpl. right. right. left. reflexivity. }
  split; [exact Hin|].
  exact (content_globs_end_in_extension_wildcard _ Hin).
Defined.

(** C7. The font roles are heading, body and mono, and the family list
    of each ends in sans-serif or in monospace. *)
Theorem font_families_end_in_generic :
  keys (theme_extend "fontFamily") = ["heading"; "body"; "mono"]
  /\ forall (role : string) (v : value),
       In (role, v) (props_of (theme_extend "fontFamily")) ->
       is_list_of is_string v = true
       /\ (last (elems_of v) VUndefined = VStr "sans-serif"
           \/ last (elems_of v) VUndefined = VStr "monospace").
Proof.
  split; [reflexivity|].
  intros role v H. each_entry H; split; try reflexivity.
  - left; reflexivity.
  - left; reflexivity.
  - right; reflexivity.
Qed.

Lemma font_families_end_in_generic_witness :
  In ("mono", VArr [VStr "JetBrains Mono"; VStr "monospace"])
     (props_of (theme_extend "fontFamily"))
  /\ last (elems_of (VArr [VStr "JetBrains Mono"; VStr "monospace"])) VUndefined
     = VStr "monospace".
Proof.
  assert (Hin : In ("mono", VArr [VStr "JetBrains Mono"; VStr "monospace"])
                   (props_of (theme_extend "fontFamily"))).
  { simpl. right. right. left. reflexivity. }
  split; [exact Hin|].
  destruct (proj2 font_families_end_in_generic _ _ Hin) as [_ [E | E]].
  - discriminate E.
  - exact E.
Defined.



(** C9. The accordion-up keyframe is the accordion-down keyframe
    reversed: its from state is the to state of accordion-down and its
    to state is the from state of accordion-down, and each of the four
    states sets the height property and nothing else. *)
Theorem accordion_up_reverses_down :
  member (theme_extend "keyframes") "accordion-up"
  = reverse_keyframe (member (theme_extend "keyframes") "accordion-down")
  /\ lookup (theme_extend "keyframes") ["accordion-up"; "from"]
     = lookup (theme_extend "keyframes") ["accordion-down"; "to"]
  /\ lookup (theme_extend "keyframes") ["accordion-up"; "to"]
     = lookup (theme_extend "keyframes") ["accordion-down"; "from"]
  /\ forall (name step : string),
       In name ["accordion-down"; "accordion-up"] ->
       In step ["from"; "to"] ->
       keys (lookup (theme_extend "keyframes") [name; step]) = ["height"].
Proof.
  repeat split.
  intros name step Hn Hs.
  simpl in Hn, Hs.
  destruct Hn as [<- | [<- | []]]; destruct Hs as [<- | [<- | []]]; reflexivity.
Qed.

Lemma accordion_up_reverses_down_witness :
  In "accordion-up" ["accordion-down"; "accordion-up"]
  /\ In "from" ["from"; "to"]
  /\ keys (lookup (theme_extend "keyframes") ["accordion-up"; "from"]) = ["height"].
Proof.
  assert (Hn : In "accordion-up" ["accordion-down"; "accordion-up"]).
  { simpl. right. left. reflexivity. }
  assert (Hs : In "from" ["from"; "to"]).
  { simpl. left. reflexivity. }
  split; [exact Hn|]. split; [exact Hs|].
  exact (proj2 (proj2 (proj2 accordion_up_reverses_down)) _ _ Hn Hs).
Defined.

(** C10. The colour roles that declare a foreground are primary,
    secondary, accent, muted, destructive, card and popover, and for each
    of them DEFAULT and foreground are different strings denoting
    different RGB values. *)
Theorem paired_colors_differ :
  paired_roles (theme_extend "colors")
  = ["primary"; "secondary"; "accent"; "muted"; "destructive"; "card"; "popover"]
  /\ forall (role : string) (v : value),
       In (role, v) (props_of (theme_extend "colors")) ->
       has_key "foreground" v = true ->
       member v "DEFAULT" <> member v "foreground"
       /\ exists (d f : string) (a b : N),
            member v "DEFAULT" = VStr d
            /\ member v "foreground" = VStr f
            /\ rgb_of_hex d = Some a
            /\ rgb_of_hex f = Some b
            /\ a <> b.
Proof.
  split; [reflexivity|].
  intros role v H Hfg.
  each_entry H; try discriminate Hfg;
    (split; [ discriminate | do 4 eexists; repeat split; discriminate ]).
Qed.

Lemma paired_colors_differ_witness :
  In ("card", member (theme_extend "colors") "card")
     (props_of (theme_extend "colors"))
  /\ has_key "foreground" (member (theme_extend "colors") "card") = true
  /\ member (member (theme_extend "colors") "card") "DEFAULT"
     <> member (member (theme_extend "colors") "card") "foreground".
Proof.
  assert (Hin : In ("card", member (theme_extend "colors") "card")
                   (props_of (theme_extend "colors"))).
  { vm_compute. tauto. }
  split; [exact Hin|].
  split; [reflexivity|].
  exact (proj1 (proj2 paired_colors_differ _ _ Hin eq_refl)).
Defined.

(** ** Further properties of the table *)

Lemma distinct_NoDup (ks : list string) : distinct ks = true -> NoDup ks.
Proof.
  induction ks as [|k rest IH]; simpl; intros H; [constructor|].
  apply andb_prop in H as [Hfresh Hrest].
  constructor; [|exact (IH Hrest)].
  intros Hin. apply negb_true_iff in Hfresh.
  assert (E : existsb (String.eqb k) rest = true).
  { apply existsb_exists. exists k. split; [exact Hin | apply String.eqb_refl]. }
  rewrite E in Hfresh. discriminate Hfresh.
Qed.

Lemma no_dup_keys_NoDup (v : value) : no_dup_keys v = true -> NoDup (keys v).
Proof.
  destruct v; simpl; intros H; try constructor.
  apply andb_prop in H as [H _]. exact (distinct_NoDup _ H).
Qed.

(** Below a value that repeats no key, every declared path leads to a
    value that repeats no key. *)
Lemma lookup_declared_no_dup (v : value) :
  no_dup_keys v = true ->
  forall p, In p (declared_paths v) -> no_dup_keys (lookup v p) = true.
Proof.
  induction v as [ | b | s | elems _ | props IH | m ] using value_ind;
    try (intros _ p []).
  intros Hnd p Hp.
  simpl in Hnd. apply andb_prop in Hnd as [Hd Hnd].
  rewrite forallb_forall in Hnd. rewrite Forall_forall in IH.
  apply declared_paths_inv in Hp as [k [x [Hin Hp]]].
  specialize (Hnd _ Hin). specialize (IH _ Hin). simpl in Hnd, IH.
  destruct Hp as [-> | [q [-> Hq]]]; simpl;
    rewrite (member_declared _ _ _ Hd Hin).
  - exact Hnd.
  - apply IH; assumption.
Qed.

(** X1. No object of the configuration writes a key twice: the keys of
    the exported object and of every value reached by a declared key path
    are pairwise distinct, so no property definition overrides an earlier
    one. *)
Theorem no_key_written_twice :
  forall p : list string,
    In p ([] :: declared_paths module_exports) ->
    NoDup (keys (lookup module_exports p)).
Proof.
  intros p [<- | Hp]; apply no_dup_keys_NoDup.
  - vm_compute. reflexivity.
  - apply lookup_declared_no_dup; [vm_compute; reflexivity | exact Hp].
Qed.

Lemma no_key_written_twice_witness :
  In ["theme"; "extend"; "colors"] ([] :: declared_paths module_exports)
  /\ NoDup (keys (lookup module_exports ["theme"; "extend"; "colors"])).
Proof.
  assert (Hin : In ["theme"; "extend"; "colors"]
                   ([] :: declared_paths module_exports)).
  { vm_compute. tauto. }
  split; [exact Hin|].
  exact (no_key_written_twice _ Hin).
Defined.

(** X2. Every role of the colour table is either a 6-digit hex string or
    a mapping with exactly the keys DEFAULT and foreground, both 6-digit
    hex strings; the roles given as a bare string are border, input,
    ring, background and foreground. *)
Theorem every_color_is_hex :
  map fst (filter (fun '(_, v) => is_string v) (props_of (theme_extend "colors")))
  = ["border"; "input"; "ring"; "background"; "foreground"]
  /\ forall (role : string) (v : value),
       In (role, v) (props_of (theme_extend "colors")) ->
       is_hex_color v = true
       \/ (keys v = ["DEFAULT"; "foreground"]
           /\ is_mapping_of is_hex_color v = true).
Proof.
  split; [reflexivity|].
  intros role v H.
  each_entry H; first [ left; reflexivity | right; split; reflexivity ].
Qed.

Lemma every_color_is_hex_witness :
  In ("ring", VStr "#064E3B") (props_of (theme_extend "colors"))
  /\ is_hex_color (VStr "#064E3B") = true.
Proof.
  assert (Hin : In ("ring", VStr "#064E3B") (props_of (theme_extend "colors"))).
  { simpl. right. right. left. reflexivity. }
  split; [exact Hin|].
  destruct (proj2 every_color_is_hex _ _ Hin) as [E | [E _]].
  - exact E.
  - discriminate E.
Defined.

(** X3. Animations and keyframes correspond one to one: every animation
    plays the keyframe of its own name, for 0.2s with easing ease-out,
    and the animation mapping has the same keys as the keyframes
    mapping, so no keyframe is left unused. *)
Theorem animations_play_their_own_keyframe :
  keys (theme_extend "animation") = keys (theme_extend "keyframes")
  /\ forall (name : string) (v : value),
       In (name, v) (props_of (theme_extend "animation")) ->
       parse_binding v = Some (mkBinding name "0.2s" "ease-out").
Proof.
  split; [reflexivity|].
  intros name v H. each_entry H; reflexivity.
Qed.

Lemma animations_play_their_own_keyframe_witness :
  In ("accordion-up", VStr "accordion-up 0.2s ease-out")
     (props_of (theme_extend "animation"))
  /\ parse_binding (VStr "accordion-up 0.2s ease-out")
     = Some (mkBinding "accordion-up" "0.2s" "ease-out").
Proof.
  assert (Hin : In ("accordion-up", VStr "accordion-up 0.2s ease-out")
                   (props_of (theme_extend "animation"))).
  { simpl. right. left. reflexivity. }
  split; [exact Hin|].
  exact (proj2 animations_play_their_own_keyframe _ _ Hin).
Defined.

(** X4. The content globs are pairwise distinct, and each one is
    relative to the project root and scans one top-level directory
    recursively: its segments are ., a directory name, the recursive
    wildcard and the js/jsx extension wildcard. *)
Theorem content_globs_relative_and_recursive :
  NoDup (elems_of (member module_exports "content"))
  /\ forall g : value,
       In g (elems_of (member module_exports "content")) ->
       exists dir : string,
         g = VStr ("./" ++ dir ++ "/**/*.{js,jsx}")
         /\ is_name dir = true
         /\ segments ("./" ++ dir ++ "/**/*.{js,jsx}")
            = ["."; dir; "**"; "*.{js,jsx}"].
Proof.
  split.
  - simpl. repeat constructor; simpl; intuition discriminate.
  - intros g H. simpl in H.
    destruct H as [<- | [<- | [<- | [<- | []]]]].
    + exists "pages". repeat split.
    + exists "components". repeat split.
    + exists "app". repeat split.
    + exists "src". repeat split.
Qed.

Lemma content_globs_relative_and_recursive_witness :
  In (VStr "./src/**/*.{js,jsx}") (elems_of (member module_exports "content"))
  /\ exists dir : string,
       VStr "./src/**/*.{js,jsx}" = VStr ("./" ++ dir ++ "/**/*.{js,jsx}")
       /\ is_name dir = true
       /\ segments ("./" ++ dir ++ "/**/*.{js,jsx}")
          = ["."; dir; "**"; "*.{js,jsx}"].
Proof.
  assert (Hin : In (VStr "./src/**/*.{js,jsx}")
                   (elems_of (member module_exports "content"))).
  { simpl. right. right. right. left. reflexivity. }
  split; [exact Hin|].
  exact (proj2 content_globs_relative_and_recursive _ Hin).
Defined.

(** X5. The plugin list is the only place where the configuration
    depends on another module: the value of every other top-level key is
    data only, while the value of plugins is not. *)
Theorem only_plugins_is_external :
  plain (member module_exports "plugins") = false
  /\ forall (k : string) (v : value),
       In (k, v) (props_of module_exports) ->
       k <> "plugins" ->
       plain v = true.
Proof.
  split; [reflexivity|].
  intros k v H Hk.
  each_entry H; first [ reflexivity | exfalso; apply Hk; reflexivity ].
Qed.

Lemma only_plugins_is_external_witness :
  In ("theme", theme) (props_of module_exports)
  /\ "theme" <> "plugins"
  /\ plain theme = true.
Proof.
  assert (Hin : In ("theme", theme) (props_of module_exports)).
  { simpl. right. right. right. left. reflexivity. }
  assert (Hk : "theme" <> "plugins").
  { discriminate. }
  split; [exact Hin|]. split; [exact Hk|].
  exact (proj2 only_plugins_is_external _ _ Hin Hk).
Defined.

(** X6. Every font role lists exactly two families: one named family,
    which is neither sans-serif nor monospace, followed by one generic
    family; the named families of the roles are pairwise distinct. *)
Theorem font_roles_name_one_family :
  NoDup (map (fun '(_, v) => hd VUndefined (elems_of v))
             (props_of (theme_extend "fontFamily")))
  /\ forall (role : string) (v : value),
       In (role, v) (props_of (theme_extend "fontFamily")) ->
       exists named generic : string,
         v = VArr [VStr named; VStr generic]
         /\ nonempty named = true
         /\ named <> "sans-serif"
         /\ named <> "monospace"
         /\ In generic ["sans-serif"; "monospace"].
Proof.
  split.
  - simpl. repeat constructor; simpl; intuition discriminate.
  - intros role v H.
    each_entry H; do 2 eexists;
      (split; [reflexivity|]);
      (split; [reflexivity|]);
      (split; [discriminate|]);
      (split; [discriminate|]);
      simpl; auto.
Qed.

Lemma font_roles_name_one_family_witness :
  In ("body", VArr [VStr "DM Sans"; VStr "sans-serif"])
     (props_of (theme_extend "fontFamily"))
  /\ exists named generic : string,
       VArr [VStr "DM Sans"; VStr "sans-serif"] = VArr [VStr named; VStr generic]
       /\ nonempty named = true
       /\ named <> "sans-serif"
       /\ named <> "monospace"
       /\ In generic ["sans-serif"; "monospace"].
Proof.
  assert (Hin : In ("body", VArr [VStr "DM Sans"; VStr "sans-serif"])
                   (props_of (theme_extend "fontFamily"))).
  { simpl. right. left. reflexivity. }
  split; [exact Hin|].
  exact (proj2 font_roles_name_one_family _ _ Hin).
Defined.

(** X7. Every string written under theme.container and under
    theme.extend.borderRadius is a length: a decimal number followed by
    rem or px, the number strictly positive. The heights of the
    keyframes are not of that form: each is the bare 0 or a var()
    reference. *)
Theorem container_and_radius_lengths_positive :
  (forall s : string,
     In s (strings_of theme_container
           ++ strings_of (theme_extend "borderRadius")) ->
     positive_length (VStr s) = true
     /\ exists l : length,
          parse_length s = Some l
          /\ (unit l = "rem" \/ unit l = "px")
          /\ (0 < magnitude l)%Q)
  /\ (forall s : string,
        In s (strings_of (theme_extend "keyframes")) ->
        positive_length (VStr s) = false
        /\ (s = "0" \/ s = "var(--radix-accordion-content-height)")).
Proof.
  split; intros s H; simpl in H.
  - repeat (destruct H as [<- | H]); try contradiction;
      (split; [reflexivity|]);
      eexists; (split; [reflexivity|]);
      (split; [simpl; auto | unfold Qlt; simpl; lia]).
  - repeat (destruct H as [<- | H]); try contradiction;
      (split; [reflexivity|]); auto.
Qed.

Lemma container_and_radius_lengths_positive_witness :
  In "1400px" (strings_of theme_container
               ++ strings_of (theme_extend "borderRadius"))
  /\ positive_length (VStr "1400px") = true
  /\ In "0" (strings_of (theme_extend "keyframes"))
  /\ positive_length (VStr "0") = false.
Proof.
  assert (Hin : In "1400px" (strings_of theme_container
                             ++ strings_of (theme_extend "borderRadius"))).
  { simpl. right. left. reflexivity. }
  assert (Hk : In "0" (strings_of (theme_extend "keyframes"))).
  { simpl. left. reflexivity. }
  split; [exact Hin|].
  split; [exact (proj1 (proj1 container_and_radius_lengths_positive _ Hin))|].
  split; [exact Hk|].
  exact (proj1 (proj2 container_and_radius_lengths_positive _ Hk)).
Defined.
